(** * Minting NFTs through meta transactions: the GET /mint example

    Part I is a shallow embedding of
    [src/nodejs/express/mint-nft-meta-transactions/src/index.js], an Express
    application with one route.  Part II models the components that the
    specification describes and the example does not contain: nonce ledger,
    builder, signer, relay client, submission ledger, status tracker and
    orchestrator.  Part III gives concrete environments for the examples;
    Parts IV and V state and prove the properties. *)

From stdpp Require Import gmap strings list fin_maps pretty.
From Stdlib Require Import ZArith Lia Sorted.

Local Open Scope string_scope.
Local Open Scope list_scope.

(** ** Part I: the Express application of [index.js] *)

Module Express.

(** A value of [req.query]: Express parses [?k=v] to a string and
    [?k[]=a&k[]=b] to an array of strings. *)
Inductive QueryValue : Type :=
| QStr (s : string)
| QArr (l : list string).

#[global] Instance QueryValue_eq_dec : EqDecision QueryValue.
Proof. solve_decision. Defined.

(** What a caller can put in a request: query parameters, headers, a body. *)
Record Request : Type := mkRequest {
  query : gmap string QueryValue;
  headers : gmap string string;
  body : string
}.

(** The arguments of one call of
    [nftContract.metaTransaction.mintWithTokenURIsByOwner(to, count, tokenURIs)]. *)
Record MintCall : Type := mkMintCall {
  arg_to : string;
  arg_count : Z;
  arg_tokenURIs : list string
}.

#[global] Instance MintCall_eq_dec : EqDecision MintCall.
Proof. solve_decision. Defined.

(** The arguments every call of the handler passes to the SDK. *)
Definition fixed_call : MintCall :=
  mkMintCall "0x07ac68355ff8663c09644bc50bb02b60140842a8" 2
             ["ipfs://xxxxx/1"; "ipfs://xxxxx/2"].

Section Handler.

(** [Data] is what the SDK call resolves to, [Err] what it rejects with, and
    [Sdk] the state behind [nftContract] (configuration, signer, relayer
    back end).  The package flair-sdk is a dependency of the example, so its
    behaviour is a variable of the development: a call reads and updates
    that state, and its promise is fulfilled, is rejected or stays pending. *)
Context {Data Err Sdk : Type}.

(** The three states of a JavaScript promise. *)
Inductive Completion (A : Type) : Type :=
| Fulfilled (a : A)
| Rejected (e : Err)
| Pending.
Arguments Fulfilled {A} a.
Arguments Rejected {A} e.
Arguments Pending {A}.

Variable sdk_mint : MintCall -> Sdk -> Completion Data * Sdk.

(** State threaded through the handling of one request: the SDK's state, the
    SDK calls made so far, the bodies given to [res.send], and the errors
    given to [next]. *)
Record HState : Type := mkHState {
  sdk : Sdk;
  calls : list MintCall;
  sent : list Data;
  forwarded : list Err
}.

(** An [async] computation: it runs on the state and ends fulfilled, rejected
    (a [throw], or an awaited promise that rejects) or never ends. *)
Definition Async (A : Type) : Type := HState -> Completion A * HState.

(** [x <- await m;; k]: the rest runs only when [m] is fulfilled. *)
Definition bind {A B} (m : Async A) (k : A -> Async B) : Async B :=
  fun s =>
    match m s with
    | (Fulfilled a, s') => k a s'
    | (Rejected e, s') => (Rejected e, s')
    | (Pending, s') => (Pending, s')
    end.

Notation "x <- m ;; k" := (bind m (fun x => k))
  (at level 100, m at next level, right associativity).

(** [nftContract.metaTransaction.mintWithTokenURIsByOwner(to, count, tokenURIs)] *)
Definition mintWithTokenURIsByOwner (to : string) (count : Z)
    (tokenURIs : list string) : Async Data :=
  fun s =>
    let c := mkMintCall to count tokenURIs in
    let '(r, k) := sdk_mint c (sdk s) in
    (r, mkHState k (calls s ++ [c]) (sent s) (forwarded s)).

(** [res.send(data)], taken to succeed. *)
Definition res_send (data : Data) : Async unit :=
  fun s => (Fulfilled tt, mkHState (sdk s) (calls s) (sent s ++ [data]) (forwarded s)).

(** [next(err)]: hands the error to Express's error-handling chain. *)
Definition next (err : Err) : Async unit :=
  fun s => (Fulfilled tt, mkHState (sdk s) (calls s) (sent s) (forwarded s ++ [err])).

(** [asyncHandler] of the package express-async-handler, a dependency of the
    example: [(req, res, next) => Promise.resolve(fn(req, res, next)).catch(next)]. *)
Definition asyncHandler (fn : Request -> Async unit) (req : Request) : Async unit :=
  fun s =>
    match fn req s with
    | (Rejected e, s') => next e s'
    | r => r
    end.

(** The [async (req, res) => { ... }] function of lines 56-78. *)
Definition mint_fn (req : Request) : Async unit :=
  let to := "0x07ac68355ff8663c09644bc50bb02b60140842a8" in
  let count := 2%Z in
  let tokenURIs := ["ipfs://xxxxx/1"; "ipfs://xxxxx/2"] in
  data <- mintWithTokenURIsByOwner to count tokenURIs;;
  res_send data.

(** The handler registered by [app.get("/mint", asyncHandler(...))]. *)
Definition get_mint : Request -> Async unit := asyncHandler mint_fn.

(** What one request leaves behind. *)
Record Reply : Type := mkReply {
  reply_calls : list MintCall;
  reply_sent : list Data;
  reply_forwarded : list Err
}.

(** The reply that goes with each way the SDK call can settle. *)
Definition reply_of (o : Completion Data) : Reply :=
  match o with
  | Fulfilled d => mkReply [fixed_call] [d] []
  | Rejected e => mkReply [fixed_call] [] [e]
  | Pending => mkReply [fixed_call] [] []
  end.

(** Handling [req] with a fresh [res] and [next], the SDK in state [k]. *)
Definition handle (req : Request) (k : Sdk) : Reply * Sdk :=
  let s := snd (get_mint req (mkHState k [] [] [])) in
  (mkReply (calls s) (sent s) (forwarded s), sdk s).

(** Requests served one after the other. *)
Fixpoint serve (reqs : list Request) (k : Sdk) : list Reply * Sdk :=
  match reqs with
  | [] => ([], k)
  | req :: rest =>
      let '(r, k') := handle req k in
      let '(rs, k'') := serve rest k' in
      (r :: rs, k'')
  end.

End Handler.

Arguments Fulfilled {Err A} a.
Arguments Rejected {Err A} e.
Arguments Pending {Err A}.

End Express.

(** ** Part I, continued: the start-up of [index.js]

    Lines 1 to 52 and 81 to 88: the environment is read, the signer and the
    contract client are built, the route is registered and the server
    listens. *)

Module Startup.

Section Script.

(** JavaScript numbers are kept abstract: [NaN] is the number that is not
    one, and [stringToNumber] is the conversion of a string that [Number]
    applies.  [Exn] is what a constructor throws, [Wallet] and [Contract] are
    the objects of ethers and flair-sdk. *)
Context {JsNumber Exn Wallet Contract : Type}.
Variable NaN : JsNumber.
Variable stringToNumber : string -> JsNumber.

(** The object given to [createFlairContractWithMetaTransactions]; a field
    read from a variable that is not set is [undefined], here [None]. *)
Record ContractConfig : Type := mkContractConfig {
  env : string;
  chainId : JsNumber;
  flairClientId : option string;
  contractKey : string;
  addressOrName : option string;
  signer : Wallet
}.

(** [new Wallet(privateKey)] and [createFlairContractWithMetaTransactions(config)]
    return an object or throw; [app.listen(port, callback)] binds the port,
    and then runs the callback, or emits an error nobody handles. *)
Variable newWallet : option string -> Exn + Wallet.
Variable createFlairContractWithMetaTransactions : ContractConfig -> Exn + Contract.
Variable listen : Z -> option Exn.

(** What the script does to the outside, in order. *)
Inductive Effect : Type :=
| NewWallet (privateKey : option string)
| CreateContract (config : ContractConfig)
| AppGet (path : string)
| AppListen (port : Z)
| ConsoleLog (line : string).

(** [Number(v)] for [v] a string or [undefined]. *)
Definition Number (v : option string) : JsNumber :=
  match v with
  | None => NaN
  | Some s => stringToNumber s
  end.

(** [const port = 8080] *)
Definition port : Z := 8080.

(** The four lines of the [app.listen] callback. *)
Definition banner : list string :=
  ["Flair SDK Example - Mint NFTs via Meta Transactions!";
   "- Listening on port " +:+ pretty port;
   "";
   "Now you can mint NFTs by opening: http://localhost:" +:+ pretty port +:+ "/mint"].

(** The object literal of lines 38 to 45. *)
Definition contractConfig (process_env : gmap string string) (signer : Wallet)
    : ContractConfig :=
  let chainId := Number (process_env !! "MINT_CHAIN_ID") in
  let flairClientId := process_env !! "FLAIR_CLIENT_ID" in
  let nftCollectionAddress := process_env !! "NFT_COLLECTION_ADDRESS" in
  mkContractConfig "dev" chainId flairClientId
    "collections/ERC721/presets/ERC721OneOfOneCollection"
    nftCollectionAddress signer.

(** The script from top to bottom, on the environment that
    [require("dotenv").config()] leaves in [process.env].  A throw ends it:
    the statements below the throwing one do not run.  The result is what was
    done and the contract client, or what was thrown. *)
Definition startup (process_env : gmap string string)
    : list Effect * (Exn + Contract) :=
  let privateKey := process_env !! "MINTER_PRIVATE_KEY" in
  match newWallet privateKey with
  | inl exn => ([NewWallet privateKey], inl exn)
  | inr signer =>
      let config := contractConfig process_env signer in
      match createFlairContractWithMetaTransactions config with
      | inl exn => ([NewWallet privateKey; CreateContract config], inl exn)
      | inr nftContract =>
          let done :=
            [NewWallet privateKey; CreateContract config;
             AppGet "/mint"; AppListen port] in
          match listen port with
          | None => (done ++ map ConsoleLog banner, inr nftContract)
          | Some exn => (done, inl exn)
          end
      end
  end.

End Script.

End Startup.

(** ** Part II: the core described by the specification

    [index.js] delegates signing and submission to the SDK and holds no nonce
    ledger, submission ledger, relay client or status tracker of its own.  The
    definitions of this part are written from sections 3 to 7 of the
    specification. *)

Module Core.

(** Modelled from the spec: the error taxonomy of section 7, absent from src/. *)
Inductive ErrorCode : Type :=
| InvalidRequest
| LedgerUnavailable
| SigningUnavailable
| RelayRejected
| RelayUnavailable
| InvalidTransition.

#[global] Instance ErrorCode_eq_dec : EqDecision ErrorCode.
Proof. solve_decision. Defined.

(** Modelled from the spec: an operation of the core returns a value or fails
    with a taxonomy code (section 7). *)
Inductive Result (A : Type) : Type :=
| Ok (a : A)
| Fail (e : ErrorCode).
Arguments Ok {A} a.
Arguments Fail {A} e.

(** *** Data model (section 3) *)

(** Modelled from the spec: MintRequest of section 3, absent from src/. *)
Record MintRequest : Type := mkMintRequest {
  recipientAddress : string;
  count : nat;
  tokenURIs : list string;
  idempotencyKey : string
}.

(** Modelled from the spec: the domain context of section 3 (chain and
    contract-version data that bind a signature to one chain and contract). *)
Record DomainContext : Type := mkDomainContext {
  domainChainId : nat;
  domainContractVersion : string
}.

(** Modelled from the spec: MetaTransactionPayload of section 3, absent from
    src/.  The call descriptor is opaque encoded call data. *)
Record MetaTransactionPayload : Type := mkPayload {
  chainId : nat;
  contractAddress : string;
  callDescriptor : string;
  nonce : nat;
  domainContext : DomainContext
}.

(** Modelled from the spec: SignedEnvelope of section 3, absent from src/. *)
Record SignedEnvelope : Type := mkEnvelope {
  payload : MetaTransactionPayload;
  signature : list Byte.byte
}.

(** Modelled from the spec: the status of a SubmissionRecord (section 3). *)
Inductive Status : Type := Pending | Submitted | Mined | Failed.

#[global] Instance Status_eq_dec : EqDecision Status.
Proof. solve_decision. Defined.

(** Modelled from the spec: SubmissionRecord of section 3, absent from src/.
    The nonce is assigned after the record is created, hence the option. *)
Record SubmissionRecord : Type := mkRecord {
  status : Status;
  trackingHandle : option string;
  assignedNonce : option nat;
  createdAt : nat;
  lastError : option string
}.

(** *** Nonce Ledger (section 4.1) *)

(** Modelled from the spec: the ledger maps an account to its next unused
    nonce; an account it has not seen starts at 0. *)
Definition nextUnused (account : string) (ledger : gmap string nat) : nat :=
  default 0 (ledger !! account).

(** Modelled from the spec: [allocate(account) -> nonce] of section 4.1,
    absent from src/: returns the next unused nonce and advances the counter in
    one atomic step; it fails only on a storage error, with
    [LedgerUnavailable], and then consumes no nonce. *)
Definition allocate (storageOk : bool) (account : string)
    (ledger : gmap string nat) : Result nat * gmap string nat :=
  if storageOk
  then (Ok (nextUnused account ledger),
        <[account := S (nextUnused account ledger)]> ledger)
  else (Fail LedgerUnavailable, ledger).

(** Modelled from the spec: [reconcile(account, onChainNonce)] of section 4.1,
    absent from src/: sets the counter to the authoritative value. *)
Definition reconcile (account : string) (onChainNonce : nat)
    (ledger : gmap string nat) : gmap string nat :=
  <[account := onChainNonce]> ledger.

(** *** Submission Ledger (section 4.5) *)

(** Modelled from the spec: what [beginOrGet] returns, a record marked "new"
    or "existing" (section 4.5). *)
Inductive Found : Type :=
| New (r : SubmissionRecord)
| Existing (r : SubmissionRecord).

(** Modelled from the spec: [beginOrGet(mintRequest)] of section 4.5, absent
    from src/: creates a Pending record when the key has none, and returns the
    record that exists otherwise; check and creation are one step. *)
Definition beginOrGet (req : MintRequest) (now : nat)
    (ledger : gmap string SubmissionRecord)
    : Found * gmap string SubmissionRecord :=
  match ledger !! idempotencyKey req with
  | Some r => (Existing r, ledger)
  | None =>
      let r := mkRecord Pending None None now None in
      (New r, <[idempotencyKey req := r]> ledger)
  end.

(** Modelled from the spec: the lifecycle of section 3 (Pending to Submitted,
    Submitted to Mined or Failed) with the step of section 4.7, which moves a
    record to Failed when building, signing or submitting fails, that is from
    Pending. *)
Definition inLifecycle (from to : Status) : bool :=
  match from, to with
  | Pending, Submitted => true
  | Pending, Failed => true
  | Submitted, Mined => true
  | Submitted, Failed => true
  | _, _ => false
  end.

(** Modelled from the spec: the [extra] argument of [advance] (section 4.5):
    the fields to record with the new status. *)
Record Extra : Type := mkExtra {
  extraHandle : option string;
  extraNonce : option nat;
  extraError : option string
}.

(** No field to record. *)
Definition noExtra : Extra := mkExtra None None None.

(** Modelled from the spec: a field of [extra] that is present replaces the
    record's. *)
Definition orKeep {A} (new old : option A) : option A :=
  match new with
  | Some x => Some x
  | None => old
  end.

(** Modelled from the spec: the record after a transition: the new status and
    the fields of [extra]; [createdAt] stays. *)
Definition withExtra (r : SubmissionRecord) (newStatus : Status) (extra : Extra)
    : SubmissionRecord :=
  mkRecord newStatus
           (orKeep (extraHandle extra) (trackingHandle r))
           (orKeep (extraNonce extra) (assignedNonce r))
           (createdAt r)
           (orKeep (extraError extra) (lastError r)).

(** Modelled from the spec: [advance(key, newStatus, extra)] of section 4.5,
    absent from src/: records a transition of the lifecycle, and fails with
    [InvalidTransition] on any other, also when the key has no record. *)
Definition advance (key : string) (newStatus : Status) (extra : Extra)
    (ledger : gmap string SubmissionRecord)
    : Result SubmissionRecord * gmap string SubmissionRecord :=
  match ledger !! key with
  | Some r =>
      if inLifecycle (status r) newStatus
      then (Ok (withExtra r newStatus extra),
            <[key := withExtra r newStatus extra]> ledger)
      else (Fail InvalidTransition, ledger)
  | None => (Fail InvalidTransition, ledger)
  end.

(** Modelled from the spec: a call on the Submission Ledger, which alone owns
    the records (section 3). *)
Inductive LedgerCall : Type :=
| BeginOrGet (req : MintRequest) (now : nat)
| Advance (key : string) (newStatus : Status) (extra : Extra).

(** The ledger after one call. *)
Definition ledgerCall (c : LedgerCall) (ledger : gmap string SubmissionRecord)
    : gmap string SubmissionRecord :=
  match c with
  | BeginOrGet req now => snd (beginOrGet req now ledger)
  | Advance key newStatus extra => snd (advance key newStatus extra ledger)
  end.

(** The ledger after a sequence of calls. *)
Definition ledgerCalls (cs : list LedgerCall)
    (ledger : gmap string SubmissionRecord) : gmap string SubmissionRecord :=
  foldl (fun l c => ledgerCall c l) ledger cs.

(** Mined and Failed are the terminal statuses (section 3). *)
Definition terminal (s : Status) : bool :=
  match s with
  | Mined | Failed => true
  | _ => false
  end.

(** *** Relay service (section 6) and Relay Client policy (section 4.4) *)

(** Modelled from the spec: the transient failures of section 4.4. *)
Inductive Transient : Type := Timeout | ServerError | ConnectionError.

(** Modelled from the spec: what the relay answers to a submission (sections
    4.4 and 6): acceptance with a tracking handle, "already seen" with the
    handle issued before, a transient failure, or a permanent rejection with a
    reason code. *)
Inductive RelayResponse : Type :=
| Accepted (handle : string)
| AlreadySeen (handle : string)
| TransientFailure (t : Transient)
| Rejection (reason : string).

(** Whether an answer is in the transient-failure set. *)
Definition isTransient (r : RelayResponse) : bool :=
  match r with
  | TransientFailure _ => true
  | _ => false
  end.

(** Modelled from the spec: the bounds of section 4.4 on retries: a maximum
    attempt count, a maximum total time spent waiting, and the base delay of
    the exponential backoff. *)
Record RetryPolicy : Type := mkRetryPolicy {
  maxAttempts : nat;
  maxElapsed : nat;
  baseDelay : nat
}.

(** Modelled from the spec: what the Relay Client does (section 4.4), in
    order: an attempt (the time, the envelope put on the wire, the relay's
    answer), a wait before the next attempt, a call of [reconcile]. *)
Inductive Event : Type :=
| Attempt (time : nat) (e : SignedEnvelope) (r : RelayResponse)
| Backoff (delay : nat)
| Reconciled (account : string) (onChainNonce : nat).

(** Modelled from the spec: what the Status Tracker sees when it polls the
    relay, mapped onto Pending, Mined (with the on-chain reference) and Failed
    (with the revert reason), as section 4.6 has it. *)
Inductive Observation : Type :=
| SeenPending
| SeenMined (reference : string)
| SeenFailed (reason : string).

(** Modelled from the spec: the outcome of [awaitTerminal] (section 4.6). *)
Inductive Outcome : Type :=
| StillPending
| ReachedMined (reference : string)
| ReachedFailed (reason : string).

(** Whether an outcome is terminal. *)
Definition isTerminalOutcome (o : Outcome) : bool :=
  match o with
  | StillPending => false
  | _ => true
  end.

(** Modelled from the spec: the configuration of section 6, supplied at
    process start and never changed. *)
Record Config : Type := mkConfig {
  configChainId : nat;
  configContractAddress : string;
  configContractVersion : string;
  configAccount : string
}.

(** Modelled from the spec: the name under which a taxonomy code is recorded
    in [lastError] (section 4.7: the originating error is recorded). *)
Definition codeName (e : ErrorCode) : string :=
  match e with
  | InvalidRequest => "InvalidRequest"
  | LedgerUnavailable => "LedgerUnavailable"
  | SigningUnavailable => "SigningUnavailable"
  | RelayRejected => "RelayRejected"
  | RelayUnavailable => "RelayUnavailable"
  | InvalidTransition => "InvalidTransition"
  end.

(** Modelled from the spec: the state of the core: the two ledgers (section
    5: no other mutable state), the clock, and the history of what the Relay
    Client did, each event with the idempotency key of the record it was done
    for. *)
Record System : Type := mkSystem {
  nonceLedger : gmap string nat;
  submissionLedger : gmap string SubmissionRecord;
  history : list (string * Event);
  clock : nat
}.

(** The core at process start: empty ledgers, nothing sent. *)
Definition initial : System := mkSystem ∅ ∅ [] 0.

(** The envelopes put on the wire for the record of [key], in order. *)
Fixpoint attemptsOf (key : string) (h : list (string * Event))
    : list SignedEnvelope :=
  match h with
  | [] => []
  | (k, Attempt _ e _) :: rest =>
      if decide (k = key) then e :: attemptsOf key rest else attemptsOf key rest
  | _ :: rest => attemptsOf key rest
  end.

(** The answers of the relay to the attempts among [evs], in order. *)
Fixpoint responses (evs : list Event) : list RelayResponse :=
  match evs with
  | [] => []
  | Attempt _ _ r :: rest => r :: responses rest
  | _ :: rest => responses rest
  end.

(** The envelopes of the attempts among [evs], in order. *)
Fixpoint envelopes (evs : list Event) : list SignedEnvelope :=
  match evs with
  | [] => []
  | Attempt _ e _ :: rest => e :: envelopes rest
  | _ :: rest => envelopes rest
  end.

(** The calls of [reconcile] among [evs]. *)
Fixpoint reconciliations (evs : list Event) : list (string * nat) :=
  match evs with
  | [] => []
  | Reconciled a n :: rest => (a, n) :: reconciliations rest
  | _ :: rest => reconciliations rest
  end.

(** The time spent waiting among [evs]. *)
Fixpoint waited (evs : list Event) : nat :=
  match evs with
  | [] => 0
  | Backoff d :: rest => d + waited rest
  | _ :: rest => waited rest
  end.

(** The calls of [reconcile] in a history. *)
Definition reconciledIn (h : list (string * Event)) : list (string * nat) :=
  reconciliations (map snd h).

(** What holds of every state the core reaches (shown in Part V): a key
    without a record has no attempt, and all attempts made for one key are one
    envelope. *)
Definition oneEnvelopePerRecord (sys : System) : Prop :=
  (forall k : string,
      submissionLedger sys !! k = None -> attemptsOf k (history sys) = [])
  /\ (forall (k : string) (e1 e2 : SignedEnvelope),
         In e1 (attemptsOf k (history sys)) ->
         In e2 (attemptsOf k (history sys)) -> e1 = e2).

Section Environment.

(** The collaborators of section 6 and what the world decides, each a
    function of the time at which it is asked. *)
Variable config : Config.
Variable policy : RetryPolicy.
(** Whether an address is well-formed. *)
Variable wellFormed : string -> bool.
(** The opaque encoding of a mint call. *)
Variable encodeCall : string -> nat -> list string -> string.
(** The signature of the held key over a payload; the time stands for the
    randomness of a randomized scheme. *)
Variable signWith : nat -> MetaTransactionPayload -> list Byte.byte.
(** Whether the key material can be accessed; whether ledger storage works. *)
Variable keyAccessible : nat -> bool.
Variable storageOk : nat -> bool.
(** The relay's answer to an envelope, its view of the chain's nonce for an
    account, and what it reports about a tracking handle. *)
Variable relay : nat -> SignedEnvelope -> RelayResponse.
Variable onChainNonce : nat -> string -> nat.
Variable poll : nat -> string -> Observation.
(** The jitter added to the delay before retry [i]. *)
Variable jitter : nat -> nat.

(** *** Meta-Transaction Builder (section 4.2) *)

(** Modelled from the spec: [build(mintRequest, account)] of section 4.2,
    absent from src/: validates first, then allocates one nonce. *)
Definition build (req : MintRequest) (account : string) (now : nat)
    (ledger : gmap string nat)
    : Result MetaTransactionPayload * gmap string nat :=
  if Nat.eqb (count req) (length (tokenURIs req)) && wellFormed (recipientAddress req)
  then
    match allocate (storageOk now) account ledger with
    | (Ok n, ledger') =>
        (Ok (mkPayload (configChainId config) (configContractAddress config)
               (encodeCall (recipientAddress req) (count req) (tokenURIs req))
               n
               (mkDomainContext (configChainId config)
                                (configContractVersion config))),
         ledger')
    | (Fail e, ledger') => (Fail e, ledger')
    end
  else (Fail InvalidRequest, ledger).

(** *** Signer (section 4.3) *)

(** Modelled from the spec: [sign(payload)] of section 4.3, absent from
    src/: fails with [SigningUnavailable] when the key cannot be accessed. *)
Definition sign (p : MetaTransactionPayload) (now : nat)
    : Result (list Byte.byte) :=
  if keyAccessible now then Ok (signWith now p) else Fail SigningUnavailable.

(** *** Relay Client (section 4.4) *)

(** Modelled from the spec: exponential backoff with jitter (section 4.4):
    the wait after attempt [i]. *)
Definition backoff (i : nat) : nat := baseDelay policy * 2 ^ i + jitter i.

(** Modelled from the spec: the attempts of [submit] (section 4.4), absent
    from src/.  [left] attempts remain, [i] were made, [elapsed] is the time
    spent waiting.  Acceptance and "already seen" return the handle; a
    permanent rejection fails at once with [RelayRejected] and reconciles;
    a transient failure is retried, with the same envelope, while an attempt
    and time remain, and fails with [RelayUnavailable] otherwise. *)
Fixpoint submitLoop (left i elapsed now : nat) (e : SignedEnvelope)
    : Result string * list Event :=
  match left with
  | 0 => (Fail RelayUnavailable, [])
  | S left' =>
      let t := now + elapsed in
      let r := relay t e in
      match r with
      | Accepted h => (Ok h, [Attempt t e r])
      | AlreadySeen h => (Ok h, [Attempt t e r])
      | Rejection _ =>
          (Fail RelayRejected,
           [Attempt t e r;
            Reconciled (configAccount config) (onChainNonce t (configAccount config))])
      | TransientFailure _ =>
          match left' with
          | 0 => (Fail RelayUnavailable, [Attempt t e r])
          | S _ =>
              if Nat.ltb (maxElapsed policy) (elapsed + backoff i)
              then (Fail RelayUnavailable, [Attempt t e r])
              else
                let '(res, evs) :=
                  submitLoop left' (S i) (elapsed + backoff i) now e in
                (res, Attempt t e r :: Backoff (backoff i) :: evs)
          end
      end
  end.

(** What the retry loop guarantees (shown in Part V) when it starts with
    [left] attempts to go, [i] attempts made and [elapsed] time waited, and
    ends with [res] after the events [evs]. *)
Definition loopGuarantee (left i elapsed now : nat) (e : SignedEnvelope)
    (res : Result string) (evs : list Event) : Prop :=
  Forall (fun r => isTransient r = true) (removelast (responses evs))
  /\ length (responses evs) <= left
  /\ elapsed + waited evs <= maxElapsed policy
  /\ envelopes evs = repeat e (length (responses evs))
  /\ match last (responses evs) with
     | Some (Accepted h) => res = Ok h /\ reconciliations evs = []
     | Some (AlreadySeen h) => res = Ok h /\ reconciliations evs = []
     | Some (Rejection _) =>
         res = Fail RelayRejected
         /\ reconciliations evs =
              [(configAccount config,
                onChainNonce (now + (elapsed + waited evs)) (configAccount config))]
     | Some (TransientFailure _) =>
         res = Fail RelayUnavailable
         /\ reconciliations evs = []
         /\ (length (responses evs) = left
             \/ maxElapsed policy <
                  elapsed + waited evs + backoff (i + length (responses evs) - 1))
     | None => res = Fail RelayUnavailable /\ left = 0
     end.

(** Modelled from the spec: the effect of the Relay Client's events on the
    Nonce Ledger: a reconciliation resets the account's counter. *)
Definition applyEvent (ledger : gmap string nat) (ev : Event)
    : gmap string nat :=
  match ev with
  | Reconciled account n => reconcile account n ledger
  | _ => ledger
  end.

(** Modelled from the spec: [submit(signedEnvelope) -> trackingHandle] of
    section 4.4, absent from src/. *)
Definition submit (e : SignedEnvelope) (now : nat) (ledger : gmap string nat)
    : Result string * list Event * gmap string nat :=
  let '(res, evs) := submitLoop (maxAttempts policy) 0 0 now e in
  (res, evs, foldl applyEvent ledger evs).

(** *** Status Tracker (section 4.6) *)

(** Modelled from the spec: [awaitTerminal(trackingHandle, timeout)] of
    section 4.6, absent from src/: polls once per unit of time, from [now],
    until a terminal state is seen or [timeout] units have passed.  Only the
    returned outcome is modelled, not its recording in the
    SubmissionRecord. *)
Fixpoint awaitTerminal (trackingHandle : string) (timeout now : nat)
    : Outcome :=
  match timeout with
  | 0 => StillPending
  | S timeout' =>
      match poll now trackingHandle with
      | SeenPending => awaitTerminal trackingHandle timeout' (S now)
      | SeenMined reference => ReachedMined reference
      | SeenFailed reason => ReachedFailed reason
      end
  end.

(** *** Mint Orchestrator (section 4.7) *)

(** Modelled from the spec: a failure of building, signing or submitting
    moves the record to Failed with the error recorded (section 4.7). *)
Definition markFailed (key : string) (e : ErrorCode) (n : option nat)
    (ledger : gmap string SubmissionRecord) : gmap string SubmissionRecord :=
  snd (advance key Failed (mkExtra None n (Some (codeName e))) ledger).

(** The events of one submission, each with the key of its record. *)
Definition tagged (key : string) (evs : list Event) : list (string * Event) :=
  map (pair key) evs.

(** Modelled from the spec: the "mint tokens" operation of sections 4.7 and
    6 up to submission, absent from src/: ledger check; an existing record
    is answered from the ledger, without building, signing or submitting; a
    new one goes through building, signing and submitting, and the answer
    is the tracking handle with status Submitted, or the error, which is
    recorded in the record. *)
Definition mint (req : MintRequest) (sys : System)
    : Result (option string * Status) * System :=
  let now := clock sys in
  let key := idempotencyKey req in
  match beginOrGet req now (submissionLedger sys) with
  | (Existing r, _) =>
      (Ok (trackingHandle r, status r),
       mkSystem (nonceLedger sys) (submissionLedger sys) (history sys) (S now))
  | (New _, recs) =>
      match build req (configAccount config) now (nonceLedger sys) with
      | (Fail e, nonces) =>
          (Fail e, mkSystem nonces (markFailed key e None recs) (history sys) (S now))
      | (Ok p, nonces) =>
          match sign p now with
          | Fail e =>
              (Fail e,
               mkSystem nonces (markFailed key e (Some (nonce p)) recs)
                        (history sys) (S now))
          | Ok sg =>
              let '(res, evs, nonces') := submit (mkEnvelope p sg) now nonces in
              match res with
              | Ok h =>
                  (Ok (Some h, Submitted),
                   mkSystem nonces'
                     (snd (advance key Submitted
                             (mkExtra (Some h) (Some (nonce p)) None) recs))
                     (history sys ++ tagged key evs) (S now))
              | Fail e =>
                  (Fail e,
                   mkSystem nonces' (markFailed key e (Some (nonce p)) recs)
                     (history sys ++ tagged key evs) (S now))
              end
          end
      end
  end.

(** Modelled from the spec: the requests of a run, handled one after the
    other. *)
Definition mintAll (reqs : list MintRequest) (sys : System) : System :=
  foldl (fun s req => snd (mint req s)) sys reqs.

(** The nonce that the Nonce Ledger hands out while [req] is handled in
    state [sys], if any: a request whose key has a record allocates nothing
    (section 4.5), and neither does one that [build] turns down; the others
    get the nonce of the payload that [build] returns.  It is the nonce that
    [mint] stores in the record (shown in Part V). *)
Definition allocatedBy (req : MintRequest) (sys : System) : option nat :=
  match beginOrGet req (clock sys) (submissionLedger sys) with
  | (Existing _, _) => None
  | (New _, _) =>
      match build req (configAccount config) (clock sys) (nonceLedger sys) with
      | (Ok p, _) => Some (nonce p)
      | (Fail _, _) => None
      end
  end.

(** The nonces handed out during a run of mint requests, in the order of
    allocation. *)
Fixpoint allocations (reqs : list MintRequest) (sys : System) : list nat :=
  match reqs with
  | [] => []
  | req :: rest =>
      match allocatedBy req sys with
      | Some n => n :: allocations rest (snd (mint req sys))
      | None => allocations rest (snd (mint req sys))
      end
  end.

End Environment.

End Core.

(** ** Part III: concrete environments for the examples *)

(** *** Stand-ins for the SDK, and requests *)

(** A stand-in for the SDK used in the examples: its state is the nonce of the
    next meta transaction; a call signs with that nonce, resolves to it and
    moves to the next one. *)
Definition counting_sdk (c : Express.MintCall) (n : nat)
    : Express.Completion (Err := string) nat * nat :=
  (Express.Fulfilled n, S n).

(** A stand-in for an SDK whose every call rejects (the relayer is down). *)
Definition rejecting_sdk (c : Express.MintCall) (n : nat)
    : Express.Completion (Err := string) nat * nat :=
  (Express.Rejected "relayer unreachable", n).

(** A stand-in for an SDK whose promise never settles. *)
Definition hanging_sdk (c : Express.MintCall) (n : nat)
    : Express.Completion (Err := string) nat * nat :=
  (Express.Pending, n).

(** The request of the specification's first example, as query parameters. *)
Definition req_k1 : Express.Request :=
  Express.mkRequest
    (<["recipientAddress" := Express.QStr "0xabc"]>
     (<["count" := Express.QStr "2"]>
     (<["tokenURIs" := Express.QArr ["ipfs://a"; "ipfs://b"]]>
     (<["idempotencyKey" := Express.QStr "k1"]> ∅))))
    ∅ "".

(** The request of the specification's second example: [count] is 2 and
    [tokenURIs] has one element. *)
Definition req_mismatch : Express.Request :=
  Express.mkRequest
    (<["recipientAddress" := Express.QStr "0xabc"]>
     (<["count" := Express.QStr "2"]>
     (<["tokenURIs" := Express.QArr ["ipfs://a"]]> ∅)))
    ∅ "".

(** A request with nothing in it. *)
Definition req_empty : Express.Request := Express.mkRequest ∅ ∅ "".

(** *** Stand-ins for the start-up *)

(** A wallet constructor that throws on a missing or empty key and otherwise
    keeps the key. *)
Definition strict_wallet (privateKey : option string) : string + string :=
  match privateKey with
  | None => inl "invalid private key"
  | Some "" => inl "invalid private key"
  | Some k => inr k
  end.

(** A contract factory that accepts every configuration. *)
Definition any_contract
    (config : Startup.ContractConfig (JsNumber := option Z) (Wallet := string))
    : string + string :=
  inr "contract".

(** A port that is free, and one that is taken. *)
Definition free_port (p : Z) : option string := None.
Definition taken_port (p : Z) : option string := Some "EADDRINUSE".

(** A conversion of strings to numbers that knows one string. *)
Definition demo_number (s : string) : option Z :=
  if String.eqb s "137" then Some 137%Z else None.

(** An environment with every variable set, one without the chain id, and
    one without the private key. *)
Definition env_full : gmap string string :=
  <["MINT_CHAIN_ID" := "137"]>
  (<["FLAIR_CLIENT_ID" := "client"]>
  (<["MINTER_PRIVATE_KEY" := "0xkey"]>
  (<["NFT_COLLECTION_ADDRESS" := "0xnft"]> ∅))).
Definition env_no_chain : gmap string string := delete "MINT_CHAIN_ID" env_full.
Definition env_no_key : gmap string string := delete "MINTER_PRIVATE_KEY" env_full.

(** *** A concrete environment for the core *)

Module Demo.
Import Core.

(** Configuration, retry policy and the collaborators' behaviour. *)
Definition config : Config := mkConfig 137 "0xc0ffee" "1.6" "minter".
Definition policy : RetryPolicy := mkRetryPolicy 3 100 1.
Definition wellFormed (address : string) : bool := String.prefix "0x" address.
Definition encodeCall (to : string) (n : nat) (uris : list string) : string :=
  String.concat "," (to :: uris).
(** A randomized signer: the bytes depend on the time of signing. *)
Definition signWith (t : nat) (p : MetaTransactionPayload) : list Byte.byte :=
  repeat Byte.x01 (S (nonce p)) ++ repeat Byte.x02 t.
Definition keyAccessible (t : nat) : bool := true.
Definition storageOk (t : nat) : bool := true.
Definition jitter (i : nat) : nat := 0.
Definition onChainNonce (t : nat) (account : string) : nat := 9.

(** A relay that times out before time 2 and accepts from then on. *)
Definition slowRelay (t : nat) (e : SignedEnvelope) : RelayResponse :=
  if Nat.ltb t 2 then TransientFailure Timeout else Accepted "t1".
(** A relay that is never reachable. *)
Definition deadRelay (t : nat) (e : SignedEnvelope) : RelayResponse :=
  TransientFailure ConnectionError.
(** A relay that rejects for good after one server error. *)
Definition strictRelay (t : nat) (e : SignedEnvelope) : RelayResponse :=
  if Nat.ltb t 1 then TransientFailure ServerError else Rejection "nonce consumed".

(** A relay view in which the submission is pending until time 10. *)
Definition poll (t : nat) (h : string) : Observation :=
  if Nat.ltb t 10 then SeenPending else SeenMined "block 42".

(** The two requests of the specification's examples. *)
Definition request : MintRequest :=
  mkMintRequest "0xabc" 2 ["ipfs://a"; "ipfs://b"] "k1".
Definition mismatch : MintRequest :=
  mkMintRequest "0xabc" 2 ["ipfs://a"] "k2".

(** The payload built for [request] with nonce [n], and its envelope when
    signed at time 0. *)
Definition payloadAt (n : nat) : MetaTransactionPayload :=
  mkPayload 137 "0xc0ffee" "0xabc,ipfs://a,ipfs://b" n (mkDomainContext 137 "1.6").
Definition envelopeAt (n : nat) : SignedEnvelope :=
  mkEnvelope (payloadAt n) (signWith 0 (payloadAt n)).
Definition envelope5 : SignedEnvelope := envelopeAt 5.

(** The core with the next nonce of the signing account at 5. *)
Definition at5 : System := mkSystem {["minter" := 5]} ∅ [] 0.

(** A ledger whose record for [k1] is Mined. *)
Definition minedRecord : SubmissionRecord :=
  mkRecord Mined (Some "t1") (Some 5) 0 None.
Definition minedLedger : gmap string SubmissionRecord := {["k1" := minedRecord]}.

(** [mint] and [mintAll] in this environment, for a given relay. *)
Definition mintWith (relay : nat -> SignedEnvelope -> RelayResponse) :=
  mint config policy wellFormed encodeCall signWith keyAccessible storageOk
       relay onChainNonce jitter.

Definition mintAllWith (relay : nat -> SignedEnvelope -> RelayResponse) :=
  mintAll config policy wellFormed encodeCall signWith keyAccessible storageOk
          relay onChainNonce jitter.

(** A relay that rejects for good what it is sent at time 0 and accepts
    everything later, and views of the chain in which the account's nonce is
    5, 9 or 2. *)
Definition rejectsOnce (t : nat) (e : SignedEnvelope) : RelayResponse :=
  if Nat.eqb t 0 then Rejection "nonce consumed" else Accepted "t2".
Definition chainAt (n : nat) (t : nat) (account : string) : nat := n.

(** A well-formed request for each idempotency key. *)
Definition requestOf (key : string) : MintRequest :=
  mkMintRequest "0xabc" 2 ["ipfs://a"; "ipfs://b"] key.

(** [mintAll] and [allocations] in this environment, for a given relay and a
    given view of the chain. *)
Definition runWith (relay : nat -> SignedEnvelope -> RelayResponse)
    (chain : nat -> string -> nat) :=
  mintAll config policy wellFormed encodeCall signWith keyAccessible storageOk
          relay chain jitter.
Definition allocationsWith (relay : nat -> SignedEnvelope -> RelayResponse)
    (chain : nat -> string -> nat) :=
  allocations config policy wellFormed encodeCall signWith keyAccessible storageOk
              relay chain jitter.

(** Three requests with keys of their own; and a run with an invalid request
    and a repeated key in it. *)
Definition three : list MintRequest := [requestOf "a"; requestOf "b"; requestOf "c"].
Definition mixed : list MintRequest :=
  [requestOf "a"; mismatch; requestOf "a"; requestOf "c"].

(** The nonce recorded for a key. *)
Definition nonceOf (key : string) (sys : System) : option nat :=
  submissionLedger sys !! key ≫= assignedNonce.

End Demo.


(** ** Part IV: properties of the GET /mint handler *)

Section HandlerProperties.

Import Express.
Context {Data Err Sdk : Type}.
Variable sdk_mint : MintCall -> Sdk -> Completion (Err := Err) Data * Sdk.

Lemma mint_fn_run (req : Request) (s : HState) :
  mint_fn sdk_mint req s =
    let s1 := mkHState (snd (sdk_mint fixed_call (sdk s)))
                       (calls s ++ [fixed_call]) (sent s) (forwarded s) in
    match fst (sdk_mint fixed_call (sdk s)) with
    | Fulfilled d =>
        (Fulfilled tt, mkHState (sdk s1) (calls s1) (sent s1 ++ [d]) (forwarded s1))
    | Rejected e => (Rejected e, s1)
    | Pending => (Pending, s1)
    end.
Proof.
  unfold mint_fn, bind, mintWithTokenURIsByOwner, res_send, fixed_call.
  destruct (sdk_mint _ (sdk s)) as [[d | e |] k]; reflexivity.
Qed.

Lemma handle_run (req : Request) (k : Sdk) :
  handle sdk_mint req k =
    (reply_of (fst (sdk_mint fixed_call k)), snd (sdk_mint fixed_call k)).
Proof.
  unfold handle, get_mint, asyncHandler. rewrite mint_fn_run. simpl.
  destruct (sdk_mint fixed_call k) as [[d | e |] k']; reflexivity.
Qed.

Lemma serve_cons (req : Request) (rest : list Request) (k : Sdk) :
  serve sdk_mint (req :: rest) k =
    (fst (handle sdk_mint req k)
       :: fst (serve sdk_mint rest (snd (handle sdk_mint req k))),
     snd (serve sdk_mint rest (snd (handle sdk_mint req k)))).
Proof.
  cbn [serve]. destruct (handle sdk_mint req k) as [r k']. cbn [fst snd].
  destruct (serve sdk_mint rest k') as [rs k'']. reflexivity.
Qed.

(** C9: whatever the request holds (query, headers, body) and whatever the
    state of the SDK, the handler calls [mintWithTokenURIsByOwner] exactly
    once, with the fixed recipient, count 2 and the two fixed token URIs;
    what it sends is the value that call resolved to (nothing when the call
    does not resolve); hence two requests, on any inputs, make the same call. *)
Theorem get_mint_fixed_arguments (req req' : Request) (k k' : Sdk) :
  reply_calls (fst (handle sdk_mint req k)) =
    [mkMintCall "0x07ac68355ff8663c09644bc50bb02b60140842a8" 2
                ["ipfs://xxxxx/1"; "ipfs://xxxxx/2"]]
  /\ reply_sent (fst (handle sdk_mint req k)) =
       match fst (sdk_mint fixed_call k) with
       | Fulfilled d => [d]
       | _ => []
       end
  /\ reply_calls (fst (handle sdk_mint req' k')) =
       reply_calls (fst (handle sdk_mint req k)).
Proof.
  rewrite !handle_run. cbn [fst].
  split; [| split].
  - destruct (fst (sdk_mint fixed_call k)); reflexivity.
  - destruct (fst (sdk_mint fixed_call k)); reflexivity.
  - destruct (fst (sdk_mint fixed_call k)), (fst (sdk_mint fixed_call k'));
      reflexivity.
Qed.

(** C10: when the SDK call rejects with [e], the function passed to
    [asyncHandler] rejects with [e], nothing is sent, and [asyncHandler]
    hands exactly [e] to [next]; when it resolves to [d], [d] is sent and
    [next] is not called; a body is sent if and only if the call resolves. *)
Theorem get_mint_rejection_reaches_next (req : Request) (k : Sdk) :
  let r := fst (handle sdk_mint req k) in
  match fst (sdk_mint fixed_call k) with
  | Fulfilled d => reply_sent r = [d] /\ reply_forwarded r = []
  | Rejected e =>
      fst (mint_fn sdk_mint req (mkHState k [] [] [])) = Rejected e
      /\ reply_sent r = [] /\ reply_forwarded r = [e]
  | Pending => reply_sent r = [] /\ reply_forwarded r = []
  end
  /\ (reply_sent r <> [] <-> exists d, fst (sdk_mint fixed_call k) = Fulfilled d).
Proof.
  cbv zeta. rewrite handle_run, mint_fn_run. cbn [fst sdk].
  destruct (fst (sdk_mint fixed_call k)) as [d | e |]; cbn.
  - split; [auto |]. split; [eauto | discriminate].
  - split; [auto |]. split; [congruence | intros [d Hd]; discriminate].
  - split; [auto |]. split; [congruence | intros [d Hd]; discriminate].
Qed.

(** C1, as the handler has it: two requests served one after the other each
    make their own SDK call, whatever [idempotencyKey] they carry; the reply
    to the second is the outcome of the second call, made on the SDK state
    that the first call left. *)
Theorem every_request_signs_and_submits (r1 r2 : Request) (k : Sdk) :
  serve sdk_mint [r1; r2] k =
    ([reply_of (fst (sdk_mint fixed_call k));
      reply_of (fst (sdk_mint fixed_call (snd (sdk_mint fixed_call k))))],
     snd (sdk_mint fixed_call (snd (sdk_mint fixed_call k)))).
Proof.
  rewrite !serve_cons, !handle_run. reflexivity.
Qed.

(** C2, as the handler has it: no request is turned away before the SDK
    call.  Every request, also one whose [count] differs from the length of
    its [tokenURIs], reaches the call; the SDK state moves as that call
    moves it; [next] receives an error only when the call itself rejects;
    and the arguments of the call have [count] equal to the number of URIs. *)
Theorem no_request_fails_before_the_call (req : Request) (k : Sdk) :
  reply_calls (fst (handle sdk_mint req k)) = [fixed_call]
  /\ snd (handle sdk_mint req k) = snd (sdk_mint fixed_call k)
  /\ reply_forwarded (fst (handle sdk_mint req k)) =
       match fst (sdk_mint fixed_call k) with
       | Rejected e => [e]
       | _ => []
       end
  /\ arg_count fixed_call = Z.of_nat (length (arg_tokenURIs fixed_call)).
Proof.
  rewrite handle_run. cbn [fst snd].
  destruct (fst (sdk_mint fixed_call k)); repeat split; reflexivity.
Qed.

(** C3, as the handler has it: the handler reads nothing of the request.
    Two requests handled on the same SDK state get the same reply and leave
    the same SDK state; the reply is fixed by how the SDK call settles: the
    resolved value is sent as it is, a rejection is given as it is to
    [next]. *)
Theorem reply_ignores_the_request (req req' : Request) (k : Sdk) :
  handle sdk_mint req k = handle sdk_mint req' k
  /\ fst (handle sdk_mint req k) = reply_of (fst (sdk_mint fixed_call k)).
Proof.
  rewrite !handle_run. split; reflexivity.
Qed.

End HandlerProperties.

(** C1 refuted on the handler: the request of the specification's example,
    carrying [idempotencyKey = k1], is served twice in a row on an SDK whose
    next nonce is 5.  Both requests enter the SDK call, and the two replies
    are different (nonce 5, then nonce 6). *)
Lemma same_key_minted_twice :
  Express.query req_k1 !! "idempotencyKey" = Some (Express.QStr "k1")
  /\ Express.serve counting_sdk [req_k1; req_k1] 5 =
       ([Express.mkReply [Express.fixed_call] [5] [];
         Express.mkReply [Express.fixed_call] [6] []], 7).
Proof. split; reflexivity. Qed.

(** C2 refuted on the handler: the request has [count = 2] and one token URI;
    it is not rejected: the SDK is called (its nonce moves from 5 to 6), the
    resolved value is sent and no error reaches [next]. *)
Lemma mismatch_is_not_rejected :
  Express.query req_mismatch !! "count" = Some (Express.QStr "2")
  /\ Express.query req_mismatch !! "tokenURIs" = Some (Express.QArr ["ipfs://a"])
  /\ Express.handle counting_sdk req_mismatch 5 =
       (Express.mkReply [Express.fixed_call] [5] [], 6).
Proof. repeat split; reflexivity. Qed.

(** C3 refuted on the handler: the caller asks for recipient [0xabc], the call
    goes to the fixed recipient; the same request gets different replies on
    different SDK states, and the same reply as a request with nothing in it;
    a rejection reaches [next] as the SDK's own error, with no taxonomy code. *)
Lemma reply_is_not_a_function_of_the_request :
  Express.query req_k1 !! "recipientAddress" = Some (Express.QStr "0xabc")
  /\ map Express.arg_to (Express.reply_calls (fst (Express.handle counting_sdk req_k1 5)))
       = ["0x07ac68355ff8663c09644bc50bb02b60140842a8"]
  /\ Express.reply_sent (fst (Express.handle counting_sdk req_k1 5)) = [5]
  /\ Express.reply_sent (fst (Express.handle counting_sdk req_k1 7)) = [7]
  /\ Express.handle counting_sdk req_empty 5 = Express.handle counting_sdk req_k1 5
  /\ Express.reply_forwarded (fst (Express.handle rejecting_sdk req_k1 5))
       = ["relayer unreachable"].
Proof. repeat split; reflexivity. Qed.

(** The handler has no timeout of its own: on an SDK call that never settles
    it sends nothing and gives nothing to [next]. *)
Example unsettled_call_gets_no_reply :
  Express.handle hanging_sdk req_k1 5 =
    (Express.mkReply [Express.fixed_call] [] [], 5).
Proof. reflexivity. Qed.

(** *** Sequences of requests *)

Section HandlerSequences.

Import Express.
Context {Data Err Sdk : Type}.
Variable sdk_mint : MintCall -> Sdk -> Completion (Err := Err) Data * Sdk.

Lemma serve_length (reqs : list Request) :
  forall k : Sdk, length (fst (serve sdk_mint reqs k)) = length reqs.
Proof.
  induction reqs as [| req rest IH]; intros k; [reflexivity |].
  rewrite serve_cons. cbn [fst length]. by rewrite IH.
Qed.


(** X3: what the requests hold has no influence on what is minted or
    answered: two sequences of the same length, served on the same SDK state,
    get the same replies and leave the same SDK state. *)
Theorem serve_ignores_the_requests (reqs reqs' : list Request) (k : Sdk) :
  length reqs = length reqs' ->
  serve sdk_mint reqs k = serve sdk_mint reqs' k.
Proof.
  revert reqs' k. induction reqs as [| req rest IH]; intros [| req' rest'] k Hlen;
    try discriminate; [reflexivity |].
  rewrite !serve_cons, !handle_run. cbn [fst snd].
  rewrite (IH rest' (snd (sdk_mint fixed_call k))) by (cbn in Hlen; lia).
  reflexivity.
Qed.

End HandlerSequences.

(** X3 at concrete sequences: the example request followed by the mismatched
    one is served exactly as two empty requests are. *)
Lemma serve_ignores_the_requests_witness :
  Express.serve counting_sdk [req_k1; req_mismatch] 5 =
    Express.serve counting_sdk [req_empty; req_empty] 5.
Proof.
  apply (serve_ignores_the_requests counting_sdk
           [req_k1; req_mismatch] [req_empty; req_empty] 5).
  reflexivity.
Defined.

(** *** The start-up *)

Section StartupProperties.

Import Startup.
Context {JsNumber Exn Wallet Contract : Type}.
Variable NaN : JsNumber.
Variable stringToNumber : string -> JsNumber.
Variable newWallet : option string -> Exn + Wallet.
Variable createContract :
  ContractConfig (JsNumber := JsNumber) (Wallet := Wallet) -> Exn + Contract.
Variable listen : Z -> option Exn.

Abbreviation startup := (startup NaN stringToNumber newWallet createContract listen).
Abbreviation contractConfig := (contractConfig NaN stringToNumber).

(** X4: the script registers a route, listens or logs only after the signer
    and the contract client have both been built: when [new Wallet] or
    [createFlairContractWithMetaTransactions] throws, there is no route, no
    listening port and no log line; and the only route is [/mint], the only
    port 8080. *)
Theorem serving_needs_signer_and_contract (process_env : gmap string string)
    (e : Effect (JsNumber := JsNumber) (Wallet := Wallet)) :
  In e (fst (startup process_env)) ->
  (exists path, e = AppGet path) \/ (exists p, e = AppListen p)
    \/ (exists line, e = ConsoleLog line) ->
  (exists (w : Wallet) (c : Contract),
      newWallet (process_env !! "MINTER_PRIVATE_KEY") = inr w
      /\ createContract (contractConfig process_env w) = inr c)
  /\ (forall path, e = AppGet path -> path = "/mint")
  /\ (forall p, e = AppListen p -> p = 8080%Z).
Proof.
  unfold Startup.startup.
  destruct (newWallet (process_env !! "MINTER_PRIVATE_KEY")) as [exn | w] eqn:Hw.
  - cbn [fst In]. intros [<- | []] [[? ?] | [[? ?] | [? ?]]]; discriminate.
  - destruct (createContract _) as [exn | c] eqn:Hc.
    + cbn [fst In]. intros [<- | [<- | []]] [[? ?] | [[? ?] | [? ?]]]; discriminate.
    + intros Hin _. split; [by exists w, c |].
      assert (Hall : In e ([NewWallet (process_env !! "MINTER_PRIVATE_KEY");
                            CreateContract (contractConfig process_env w);
                            AppGet "/mint"; AppListen port]
                           ++ map ConsoleLog banner)).
      { destruct (listen port); cbn [fst] in Hin; [| exact Hin].
        apply in_or_app. by left. }
      clear Hin. apply in_app_or in Hall. split.
      * intros path ->. destruct Hall as [Hd | Hb].
        -- cbn [In] in Hd. destruct Hd as [H | [H | [H | [H | []]]]]; congruence.
        -- apply in_map_iff in Hb. destruct Hb as (l & Hl & _). discriminate.
      * intros p ->. destruct Hall as [Hd | Hb].
        -- cbn [In] in Hd. destruct Hd as [H | [H | [H | [H | []]]]]; try congruence.
           injection H as <-. reflexivity.
        -- apply in_map_iff in Hb. destruct Hb as (l & Hl & _). discriminate.
Qed.

(** X5: a line is logged only when the server really listens: the port was
    bound, the script ended with the contract client and not with a throw,
    the line is one of the four of the banner, and all four are logged, in
    order, after everything else. *)
Theorem banner_means_listening (process_env : gmap string string) (line : string) :
  In (ConsoleLog line) (fst (startup process_env)) ->
  listen port = None
  /\ (exists c : Contract, snd (startup process_env) = inr c)
  /\ In line banner
  /\ exists before,
       fst (startup process_env) = before ++ map ConsoleLog banner
       /\ Forall (fun e => forall l, e <> ConsoleLog l) before.
Proof.
  unfold Startup.startup.
  destruct (newWallet (process_env !! "MINTER_PRIVATE_KEY")) as [exn | w].
  - cbn [fst In]. intros [H | []]. discriminate.
  - destruct (createContract _) as [exn | c].
    + cbn [fst In]. intros [H | [H | []]]; discriminate.
    + destruct (listen port) as [exn |]; cbn [fst snd].
      * cbn [In]. intros [H | [H | [H | [H | []]]]]; discriminate.
      * intros Hin. split; [reflexivity |]. split; [by exists c |]. split.
        -- apply in_app_or in Hin. destruct Hin as [Hd | Hb].
           ++ cbn [In] in Hd. destruct Hd as [H | [H | [H | [H | []]]]]; discriminate.
           ++ apply in_map_iff in Hb. destruct Hb as (l & Hl & Hb).
              by injection Hl as ->.
        -- eexists. split; [reflexivity |].
           repeat constructor; intros l; discriminate.
Qed.

(** X6: the script checks none of its environment variables.  When
    [MINT_CHAIN_ID] is not set and the wallet can be built, the contract
    client is still asked for, with [NaN] as chain id; the client id and the
    collection address are handed over as they are read, [undefined] when
    they are not set. *)
Theorem unset_chain_id_becomes_NaN (process_env : gmap string string) (w : Wallet) :
  process_env !! "MINT_CHAIN_ID" = None ->
  newWallet (process_env !! "MINTER_PRIVATE_KEY") = inr w ->
  exists config,
    In (CreateContract config) (fst (startup process_env))
    /\ chainId config = NaN
    /\ flairClientId config = process_env !! "FLAIR_CLIENT_ID"
    /\ addressOrName config = process_env !! "NFT_COLLECTION_ADDRESS"
    /\ signer config = w.
Proof.
  intros Hchain Hw. exists (contractConfig process_env w).
  split.
  - unfold Startup.startup. rewrite Hw.
    destruct (createContract _) as [exn | c]; [cbn; auto |].
    destruct (listen port); cbn [fst]; [cbn; auto |].
    apply in_or_app. left. cbn. auto.
  - unfold Startup.contractConfig, Number. rewrite Hchain. cbn. auto.
Qed.

End StartupProperties.

(** X4 at a concrete start-up: every variable is set and the port is free;
    the route is registered, which needed the wallet and the contract. *)
Lemma serving_needs_signer_and_contract_witness :
  exists w c : string,
    strict_wallet (env_full !! "MINTER_PRIVATE_KEY") = inr w
    /\ any_contract (Startup.contractConfig None demo_number env_full w) = inr c.
Proof.
  destruct (serving_needs_signer_and_contract None demo_number strict_wallet
              any_contract free_port env_full (Startup.AppGet "/mint"))
    as [Hbuilt _].
  - vm_compute. right. right. left. reflexivity.
  - left. exists "/mint". reflexivity.
  - exact Hbuilt.
Defined.

(** X5 at a concrete start-up: the last banner line is logged, so the port
    was bound. *)
Lemma banner_means_listening_witness :
  free_port Startup.port = None
  /\ (exists c : string,
        snd (Startup.startup None demo_number strict_wallet any_contract
               free_port env_full) = inr c)
  /\ In "Now you can mint NFTs by opening: http://localhost:8080/mint"
        Startup.banner
  /\ exists before,
       fst (Startup.startup None demo_number strict_wallet any_contract
              free_port env_full) = before ++ map Startup.ConsoleLog Startup.banner
       /\ Forall (fun e => forall l, e <> Startup.ConsoleLog l) before.
Proof.
  apply (banner_means_listening None demo_number strict_wallet any_contract
           free_port env_full
           "Now you can mint NFTs by opening: http://localhost:8080/mint").
  vm_compute. do 7 right. left. reflexivity.
Defined.

(** X6 at a concrete start-up: without [MINT_CHAIN_ID] the contract client is
    asked for with [NaN] (here [None]) as chain id. *)
Lemma unset_chain_id_becomes_NaN_witness :
  exists config,
    In (Startup.CreateContract config)
       (fst (Startup.startup None demo_number strict_wallet any_contract
               free_port env_no_chain))
    /\ Startup.chainId config = None
    /\ Startup.flairClientId config = env_no_chain !! "FLAIR_CLIENT_ID"
    /\ Startup.addressOrName config = env_no_chain !! "NFT_COLLECTION_ADDRESS"
    /\ Startup.signer config = "0xkey".
Proof.
  apply (unset_chain_id_becomes_NaN None demo_number strict_wallet any_contract
           free_port env_no_chain "0xkey"); reflexivity.
Defined.

(** Start-ups that end early: without the private key the wallet throws and
    nothing else happens; on a taken port the route is registered and nothing
    is logged. *)
Example startup_without_key :
  Startup.startup None demo_number strict_wallet any_contract free_port env_no_key
  = ([Startup.NewWallet None], inl "invalid private key").
Proof. reflexivity. Qed.

Example startup_on_taken_port :
  Startup.startup None demo_number strict_wallet any_contract taken_port env_full
  = ([Startup.NewWallet (Some "0xkey");
      Startup.CreateContract
        (Startup.mkContractConfig "dev" (Some 137%Z) (Some "client")
           "collections/ERC721/presets/ERC721OneOfOneCollection"
           (Some "0xnft") "0xkey");
      Startup.AppGet "/mint"; Startup.AppListen 8080],
     inl "EADDRINUSE").
Proof. reflexivity. Qed.

(** ** Part V: properties of the core described by the specification *)

Section NonceLedgerFacts.

Import Core.

Lemma nextUnused_insert (a account : string) (n : nat) (ledger : gmap string nat) :
  nextUnused account (<[a := n]> ledger) =
    if decide (a = account) then n else nextUnused account ledger.
Proof.
  unfold nextUnused. destruct (decide (a = account)) as [-> | Hne].
  - by rewrite lookup_insert_eq.
  - by rewrite lookup_insert_ne.
Qed.

Lemma seq_strictly_sorted (start len : nat) : StronglySorted lt (seq start len).
Proof.
  revert start. induction len as [| len IH]; intros start; cbn [seq].
  - constructor.
  - constructor; [apply IH |].
    apply List.Forall_forall. intros x Hx. apply in_seq in Hx. lia.
Qed.

End NonceLedgerFacts.

Section SubmissionLedgerFacts.

Import Core.

Lemma terminal_not_inLifecycle (from to : Status) :
  terminal from = true -> inLifecycle from to = false.
Proof. destruct from, to; cbn; congruence. Qed.

Lemma advance_outside_lifecycle (key : string) (r : SubmissionRecord)
    (newStatus : Status) (extra : Extra) (ledger : gmap string SubmissionRecord) :
  ledger !! key = Some r ->
  inLifecycle (status r) newStatus = false ->
  advance key newStatus extra ledger = (Fail InvalidTransition, ledger).
Proof. intros Hr Hout. unfold advance. rewrite Hr, Hout. reflexivity. Qed.

(** [advance] touches no record but the one of its key. *)
Lemma advance_other (key key' : string) (newStatus : Status) (extra : Extra)
    (ledger : gmap string SubmissionRecord) :
  key' <> key ->
  snd (advance key' newStatus extra ledger) !! key = ledger !! key.
Proof.
  intros Hne. unfold advance.
  destruct (ledger !! key') as [r' |]; [| reflexivity].
  destruct (inLifecycle (status r') newStatus); [| reflexivity].
  cbn [snd]. by rewrite lookup_insert_ne.
Qed.

(** [beginOrGet] leaves every record that exists as it is. *)
Lemma beginOrGet_keeps (req : MintRequest) (now : nat) (key : string)
    (r : SubmissionRecord) (ledger : gmap string SubmissionRecord) :
  ledger !! key = Some r ->
  snd (beginOrGet req now ledger) !! key = Some r.
Proof.
  intros Hr. unfold beginOrGet.
  destruct (ledger !! idempotencyKey req) as [r' |] eqn:Hk; cbn [snd].
  - exact Hr.
  - rewrite lookup_insert_ne; [exact Hr | congruence].
Qed.

Lemma ledgerCall_keeps_terminal (c : LedgerCall) (key : string)
    (r : SubmissionRecord) (ledger : gmap string SubmissionRecord) :
  ledger !! key = Some r ->
  terminal (status r) = true ->
  ledgerCall c ledger !! key = Some r.
Proof.
  intros Hr Hterm. destruct c as [req now | key' newStatus extra]; cbn [ledgerCall].
  - by apply beginOrGet_keeps.
  - destruct (decide (key' = key)) as [-> | Hne].
    + rewrite (advance_outside_lifecycle key r); [exact Hr | exact Hr |].
      by apply terminal_not_inLifecycle.
    + by rewrite advance_other.
Qed.

Lemma ledgerCalls_keep_terminal (cs : list LedgerCall) (key : string)
    (r : SubmissionRecord) :
  terminal (status r) = true ->
  forall ledger : gmap string SubmissionRecord,
    ledger !! key = Some r -> ledgerCalls cs ledger !! key = Some r.
Proof.
  intros Hterm. unfold ledgerCalls.
  induction cs as [| c cs IH]; intros ledger Hr; cbn [foldl].
  - exact Hr.
  - apply IH. by apply ledgerCall_keeps_terminal.
Qed.


End SubmissionLedgerFacts.

Section StatusTrackerFacts.

Import Core.
Variable poll : nat -> string -> Observation.

(** [awaitTerminal] always returns; it returns [StillPending] exactly when
    every poll of the window saw Pending. *)
Lemma awaitTerminal_pending_iff (h : string) (timeout : nat) :
  forall now : nat,
    awaitTerminal poll h timeout now = StillPending <->
    (forall t : nat, now <= t < now + timeout -> poll t h = SeenPending).
Proof.
  induction timeout as [| timeout IH]; intros now; cbn [awaitTerminal].
  - split; [intros _ t Ht; lia | reflexivity].
  - destruct (poll now h) as [| reference | reason] eqn:Hp.
    + rewrite IH. split.
      * intros H t Ht. destruct (decide (t = now)) as [-> | Hne]; [exact Hp |].
        apply H. lia.
      * intros H t Ht. apply H. lia.
    + split; [discriminate |]. intros H.
      rewrite (H now) in Hp by lia. discriminate.
    + split; [discriminate |]. intros H.
      rewrite (H now) in Hp by lia. discriminate.
Qed.

(** C8: when every poll made before the timeout elapses sees the submission
    still pending, [awaitTerminal] returns [StillPending], a result that is
    not terminal, and polling again later from that point goes on from
    where it stopped. *)
Theorem awaitTerminal_times_out_pending (h : string) (timeout now : nat) :
  (forall t : nat, now <= t < now + timeout -> poll t h = SeenPending) ->
  awaitTerminal poll h timeout now = StillPending
  /\ isTerminalOutcome (awaitTerminal poll h timeout now) = false
  /\ forall later : nat,
       awaitTerminal poll h (timeout + later) now =
         awaitTerminal poll h later (now + timeout).
Proof.
  intros Hpending.
  assert (Hstill : awaitTerminal poll h timeout now = StillPending)
    by (by apply awaitTerminal_pending_iff).
  split; [exact Hstill |]. split; [by rewrite Hstill |].
  intros later. clear Hstill. revert now Hpending.
  induction timeout as [| timeout IH]; intros now Hpending.
  - cbn [Nat.add]. by rewrite Nat.add_0_r.
  - cbn [Nat.add awaitTerminal]. rewrite (Hpending now) by lia.
    rewrite IH; [f_equal; lia |]. intros t Ht. apply Hpending. lia.
Qed.

End StatusTrackerFacts.

Section RelayClientFacts.

Import Core.
Variable config : Config.
Variable policy : RetryPolicy.
Variable relay : nat -> SignedEnvelope -> RelayResponse.
Variable onChainNonce : nat -> string -> nat.
Variable jitter : nat -> nat.

Abbreviation submitLoop := (submitLoop config policy relay onChainNonce jitter).
Abbreviation submit := (submit config policy relay onChainNonce jitter).
Abbreviation backoff := (backoff policy jitter).

Abbreviation loopGuarantee := (loopGuarantee config policy onChainNonce jitter).

Lemma submitLoop_attempts (left i elapsed now : nat) (e : SignedEnvelope) :
  left <> 0 -> responses (snd (submitLoop left i elapsed now e)) <> [].
Proof.
  destruct left as [| left]; [congruence |]. intros _. cbn [Core.submitLoop].
  destruct (relay (now + elapsed) e); cbn [snd responses]; try discriminate.
  destruct left as [| left]; [cbn [snd responses]; discriminate |].
  destruct (Nat.ltb (maxElapsed policy) (elapsed + backoff i));
    [cbn [snd responses]; discriminate |].
  destruct (submitLoop (S left) (S i) _ now e). cbn [snd responses]. discriminate.
Qed.

Lemma submitLoop_guarantee (now : nat) (e : SignedEnvelope) (left : nat) :
  forall i elapsed : nat,
    elapsed <= maxElapsed policy ->
    loopGuarantee left i elapsed now e
      (fst (submitLoop left i elapsed now e))
      (snd (submitLoop left i elapsed now e)).
Proof.
  induction left as [| left IH]; intros i elapsed Hel.
  - cbn. unfold Core.loopGuarantee. cbn. repeat split; auto with lia.
  - cbn [Core.submitLoop].
    destruct (relay (now + elapsed) e) as [h | h | t | reason] eqn:Hr.
    + unfold Core.loopGuarantee. cbn. rewrite Nat.add_0_r. repeat split; auto with lia.
    + unfold Core.loopGuarantee. cbn. rewrite Nat.add_0_r. repeat split; auto with lia.
    + destruct left as [| left].
      { unfold Core.loopGuarantee. cbn. rewrite Nat.add_0_r. repeat split; auto with lia. }
      destruct (Nat.ltb (maxElapsed policy) (elapsed + backoff i)) eqn:Hlt.
      { apply Nat.ltb_lt in Hlt.
        unfold Core.loopGuarantee. cbn. rewrite !Nat.add_0_r, Nat.add_sub.
        repeat split; auto with lia. }
      apply Nat.ltb_ge in Hlt.
      specialize (IH (S i) (elapsed + backoff i) Hlt).
      pose proof (submitLoop_attempts (S left) (S i) (elapsed + backoff i) now e
                    ltac:(discriminate)) as Hne.
      destruct (submitLoop (S left) (S i) (elapsed + backoff i) now e)
        as [res evs].
      cbn [fst snd] in *.
      destruct IH as (Htr & Hlen & Hwait & Henv & Hlast).
      unfold Core.loopGuarantee.
      cbn [responses envelopes reconciliations waited length].
      destruct (responses evs) as [| r rs] eqn:Hresp; [congruence |].
      split; [| split; [| split; [| split]]].
      * cbn [removelast]. constructor; [reflexivity | exact Htr].
      * cbn [length] in *. lia.
      * lia.
      * rewrite Henv. reflexivity.
      * rewrite last_cons. destruct (last (r :: rs)) as [[h | h | t' | reason] |].
        -- exact Hlast.
        -- exact Hlast.
        -- destruct Hlast as (Hres & Hrec & Hex). repeat split; auto.
           cbn [length] in *.
           destruct Hex as [Hex | Hex]; [left; lia | right].
           replace (i + S (S (length rs)) - 1) with (S i + S (length rs) - 1) by lia.
           lia.
        -- destruct Hlast as (Hres & Hrec). split; [exact Hres |].
           rewrite Hrec.
           replace (elapsed + (backoff i + waited evs))
             with (elapsed + backoff i + waited evs) by lia.
           reflexivity.
        -- destruct Hlast as (_ & Hz). discriminate.
    + unfold Core.loopGuarantee. cbn. rewrite Nat.add_0_r. repeat split; auto with lia.
Qed.

Lemma foldl_applyEvent (evs : list Event) :
  forall ledger : gmap string nat,
    foldl applyEvent ledger evs =
      foldl (fun l an => reconcile (fst an) (snd an) l) ledger (reconciliations evs).
Proof.
  induction evs as [| ev evs IH]; intros ledger; [reflexivity |].
  destruct ev; cbn [foldl applyEvent reconciliations fst snd]; apply IH.
Qed.

Lemma submit_unfold (e : SignedEnvelope) (now : nat) (ledger : gmap string nat) :
  submit e now ledger =
    (fst (submitLoop (maxAttempts policy) 0 0 now e),
     snd (submitLoop (maxAttempts policy) 0 0 now e),
     foldl applyEvent ledger (snd (submitLoop (maxAttempts policy) 0 0 now e))).
Proof.
  unfold Core.submit. destruct (submitLoop _ 0 0 now e). reflexivity.
Qed.

(** Every attempt of one call of [submit] puts the envelope it was given on
    the wire. *)
Lemma submit_reuses_envelope (e : SignedEnvelope) (now : nat)
    (ledger : gmap string nat) :
  envelopes (snd (fst (submit e now ledger))) =
    repeat e (length (responses (snd (fst (submit e now ledger))))).
Proof.
  rewrite submit_unfold. cbn [fst snd].
  apply (submitLoop_guarantee now e (maxAttempts policy) 0 0). lia.
Qed.

(** C6: for every envelope, time and ledger, whatever the relay answers:
    every attempt of [submit] but the last was answered by a transient
    failure (timeout, server error, connection error), so nothing else is
    ever retried; attempts and waiting stay within the policy's bounds; a
    last answer that is a transient failure means the bounds are exhausted
    (no attempt left, or no time for the next wait) and [submit] fails with
    [RelayUnavailable] without reconciling; a permanent rejection fails with
    [RelayRejected] and [reconcile] is called exactly once, for the signing
    account, which is the only change to the Nonce Ledger; acceptance and
    "already seen" return the handle and do not reconcile. *)
Theorem submit_retries_only_transient_failures (e : SignedEnvelope)
    (now : nat) (ledger : gmap string nat) :
  let res := fst (fst (submit e now ledger)) in
  let evs := snd (fst (submit e now ledger)) in
  let ledger' := snd (submit e now ledger) in
  Forall (fun r => isTransient r = true) (removelast (responses evs))
  /\ length (responses evs) <= maxAttempts policy
  /\ waited evs <= maxElapsed policy
  /\ match last (responses evs) with
     | Some (Accepted h) =>
         res = Ok h /\ reconciliations evs = [] /\ ledger' = ledger
     | Some (AlreadySeen h) =>
         res = Ok h /\ reconciliations evs = [] /\ ledger' = ledger
     | Some (Rejection _) =>
         res = Fail RelayRejected
         /\ reconciliations evs =
              [(configAccount config,
                onChainNonce (now + waited evs) (configAccount config))]
         /\ length (reconciliations evs) = 1
         /\ ledger' =
              reconcile (configAccount config)
                (onChainNonce (now + waited evs) (configAccount config)) ledger
     | Some (TransientFailure _) =>
         res = Fail RelayUnavailable
         /\ reconciliations evs = [] /\ ledger' = ledger
         /\ (length (responses evs) = maxAttempts policy
             \/ maxElapsed policy <
                  waited evs + backoff (length (responses evs) - 1))
     | None => res = Fail RelayUnavailable /\ maxAttempts policy = 0
     end.
Proof.
  cbv zeta. rewrite submit_unfold. cbn [fst snd].
  destruct (submitLoop_guarantee now e (maxAttempts policy) 0 0 ltac:(lia))
    as (Htr & Hlen & Hwait & _ & Hlast).
  rewrite foldl_applyEvent.
  cbn [Nat.add] in *.
  split; [exact Htr |]. split; [exact Hlen |]. split; [exact Hwait |].
  destruct (last (responses _)) as [[h | h | t | reason] |].
  - destruct Hlast as [-> ->]. auto.
  - destruct Hlast as [-> ->]. auto.
  - destruct Hlast as (-> & -> & Hex). auto.
  - destruct Hlast as [-> ->]. auto.
  - exact Hlast.
Qed.

End RelayClientFacts.

Section OrchestratorFacts.

Import Core.
Variable config : Config.
Variable policy : RetryPolicy.
Variable wellFormed : string -> bool.
Variable encodeCall : string -> nat -> list string -> string.
Variable signWith : nat -> MetaTransactionPayload -> list Byte.byte.
Variable keyAccessible : nat -> bool.
Variable storageOk : nat -> bool.
Variable relay : nat -> SignedEnvelope -> RelayResponse.
Variable onChainNonce : nat -> string -> nat.
Variable jitter : nat -> nat.

Abbreviation mint :=
  (mint config policy wellFormed encodeCall signWith keyAccessible storageOk
        relay onChainNonce jitter).
Abbreviation mintAll :=
  (mintAll config policy wellFormed encodeCall signWith keyAccessible storageOk
           relay onChainNonce jitter).

Lemma attemptsOf_app (key : string) (h1 h2 : list (string * Event)) :
  attemptsOf key (h1 ++ h2) = attemptsOf key h1 ++ attemptsOf key h2.
Proof.
  induction h1 as [| [k ev] h1 IH]; [reflexivity |].
  cbn [app attemptsOf]. destruct ev; try exact IH.
  destruct (decide (k = key)); [cbn [app]; by rewrite IH | exact IH].
Qed.

Lemma attemptsOf_tagged (key k : string) (evs : list Event) :
  attemptsOf k (tagged key evs) = if decide (key = k) then envelopes evs else [].
Proof.
  unfold tagged. induction evs as [| ev evs IH].
  - by destruct (decide (key = k)).
  - cbn [map attemptsOf envelopes]. destruct ev; try exact IH.
    rewrite IH. by destruct (decide (key = k)).
Qed.

(** [advance] creates no record. *)
Lemma advance_lookup_None (key k : string) (newStatus : Status) (extra : Extra)
    (ledger : gmap string SubmissionRecord) :
  snd (advance key newStatus extra ledger) !! k = None -> ledger !! k = None.
Proof.
  unfold advance. destruct (ledger !! key) as [r |] eqn:Hr; [| done].
  destruct (inLifecycle (status r) newStatus); [| done]. cbn [snd].
  destruct (decide (key = k)) as [-> | Hne].
  - by rewrite lookup_insert_eq.
  - by rewrite lookup_insert_ne.
Qed.

(** One request either adds nothing to the history, or its key had no
    record and it adds the events of one call of [submit], all for one
    envelope; and it removes no record. *)
Lemma mint_step (req : MintRequest) (sys : System) :
  (forall k : string,
      submissionLedger (snd (mint req sys)) !! k = None ->
      submissionLedger sys !! k = None /\ k <> idempotencyKey req)
  /\ (history (snd (mint req sys)) = history sys
      \/ submissionLedger sys !! idempotencyKey req = None
         /\ exists (e : SignedEnvelope) (evs : list Event),
              history (snd (mint req sys)) =
                history sys ++ tagged (idempotencyKey req) evs
              /\ envelopes evs = repeat e (length (responses evs))).
Proof.
  unfold Core.mint, beginOrGet.
  destruct (submissionLedger sys !! idempotencyKey req) as [r |] eqn:Hkey.
  - cbn [snd submissionLedger history]. split; [| by left].
    intros k Hk. split; [exact Hk | congruence].
  - set (recs := <[idempotencyKey req := _]> (submissionLedger sys)).
    assert (Hrecs : forall k, recs !! k = None ->
              submissionLedger sys !! k = None /\ k <> idempotencyKey req).
    { intros k Hk. subst recs.
      destruct (decide (idempotencyKey req = k)) as [<- | Hne].
      - by rewrite lookup_insert_eq in Hk.
      - rewrite lookup_insert_ne in Hk by exact Hne. split; [exact Hk | congruence]. }
    destruct (build _ _ _ _ _ _ _ _) as [[p | err] nonces].
    + destruct (sign _ _ _ _) as [sg | err].
      * pose proof (submit_reuses_envelope config policy relay onChainNonce jitter
                      (mkEnvelope p sg) (clock sys) nonces) as Henv.
        destruct (submit _ _ _ _ _ _ _ _) as [[res evs] nonces'].
        cbn [fst snd] in Henv.
        destruct res as [h | err]; cbn [snd submissionLedger history].
        -- split.
           ++ intros k Hk. apply Hrecs. by apply advance_lookup_None in Hk.
           ++ right. split; [reflexivity |]. by exists (mkEnvelope p sg), evs.
        -- split.
           ++ intros k Hk. apply Hrecs. unfold markFailed in Hk.
              by apply advance_lookup_None in Hk.
           ++ right. split; [reflexivity |]. by exists (mkEnvelope p sg), evs.
      * cbn [snd submissionLedger history]. split; [| by left].
        intros k Hk. apply Hrecs. unfold markFailed in Hk.
        by apply advance_lookup_None in Hk.
    + cbn [snd submissionLedger history]. split; [| by left].
      intros k Hk. apply Hrecs. unfold markFailed in Hk.
      by apply advance_lookup_None in Hk.
Qed.

Lemma oneEnvelopePerRecord_initial : oneEnvelopePerRecord initial.
Proof. split; [reflexivity | intros k e1 e2 []]. Qed.

Lemma mint_keeps_oneEnvelopePerRecord (req : MintRequest) (sys : System) :
  oneEnvelopePerRecord sys -> oneEnvelopePerRecord (snd (mint req sys)).
Proof.
  intros [Hnone Hone].
  destruct (mint_step req sys) as [Hdom [Hsame | (Hfresh & e & evs & Hhist & Henv)]].
  - unfold oneEnvelopePerRecord. rewrite Hsame. split.
    + intros k Hk. apply Hnone. by apply Hdom.
    + exact Hone.
  - unfold oneEnvelopePerRecord. rewrite Hhist. split.
    + intros k Hk. destruct (Hdom k Hk) as [Hk' Hne].
      rewrite attemptsOf_app, attemptsOf_tagged, (Hnone k Hk').
      destruct (decide (idempotencyKey req = k)); [congruence | reflexivity].
    + intros k e1 e2. rewrite attemptsOf_app, attemptsOf_tagged.
      destruct (decide (idempotencyKey req = k)) as [<- | Hne].
      * rewrite (Hnone _ Hfresh), Henv. cbn [app].
        intros H1 H2. apply repeat_spec in H1, H2. congruence.
      * rewrite app_nil_r. apply Hone.
Qed.

Lemma mintAll_keeps_oneEnvelopePerRecord (reqs : list MintRequest) :
  forall sys : System,
    oneEnvelopePerRecord sys -> oneEnvelopePerRecord (mintAll reqs sys).
Proof.
  unfold Core.mintAll.
  induction reqs as [| req reqs IH]; intros sys Hinv; cbn [foldl].
  - exact Hinv.
  - apply IH. by apply mint_keeps_oneEnvelopePerRecord.
Qed.

(** C5: in any run of mint requests from the initial state, whatever the
    relay answers and however the signer randomizes, any two envelopes put
    on the wire for the record of one idempotency key (retries inside
    [submit] included) are the same envelope: same payload and the same
    signature bytes. *)
Theorem envelope_is_never_resigned (reqs : list MintRequest) (key : string)
    (e1 e2 : SignedEnvelope) :
  In e1 (attemptsOf key (history (mintAll reqs initial))) ->
  In e2 (attemptsOf key (history (mintAll reqs initial))) ->
  signature e1 = signature e2 /\ payload e1 = payload e2.
Proof.
  intros H1 H2.
  destruct (mintAll_keeps_oneEnvelopePerRecord reqs initial
              oneEnvelopePerRecord_initial) as [_ Hone].
  rewrite (Hone key e1 e2 H1 H2). split; reflexivity.
Qed.

End OrchestratorFacts.

Section NonceSequenceFacts.

Import Core.
Variable config : Config.
Variable policy : RetryPolicy.
Variable wellFormed : string -> bool.
Variable encodeCall : string -> nat -> list string -> string.
Variable signWith : nat -> MetaTransactionPayload -> list Byte.byte.
Variable keyAccessible : nat -> bool.
Variable storageOk : nat -> bool.
Variable relay : nat -> SignedEnvelope -> RelayResponse.
Variable onChainNonce : nat -> string -> nat.
Variable jitter : nat -> nat.

Abbreviation mint :=
  (mint config policy wellFormed encodeCall signWith keyAccessible storageOk
        relay onChainNonce jitter).
Abbreviation mintAll :=
  (mintAll config policy wellFormed encodeCall signWith keyAccessible storageOk
           relay onChainNonce jitter).
Abbreviation build := (build config wellFormed encodeCall storageOk).
Abbreviation allocatedBy := (allocatedBy config wellFormed encodeCall storageOk).
Abbreviation allocations :=
  (allocations config policy wellFormed encodeCall signWith keyAccessible storageOk
               relay onChainNonce jitter).
(** The next unused nonce of the signing account. *)
Abbreviation counter := (fun sys : System => nextUnused (configAccount config) (nonceLedger sys)).

Lemma reconciliations_app (evs1 evs2 : list Event) :
  reconciliations (evs1 ++ evs2) = reconciliations evs1 ++ reconciliations evs2.
Proof.
  induction evs1 as [| ev evs1 IH]; [reflexivity |].
  destruct ev; cbn [app reconciliations]; by rewrite IH.
Qed.

Lemma reconciledIn_app (h1 h2 : list (string * Event)) :
  reconciledIn (h1 ++ h2) = reconciledIn h1 ++ reconciledIn h2.
Proof. unfold reconciledIn. by rewrite map_app, reconciliations_app. Qed.

Lemma reconciledIn_tagged (key : string) (evs : list Event) :
  reconciledIn (tagged key evs) = reconciliations evs.
Proof.
  unfold reconciledIn, tagged. rewrite map_map. cbn [snd]. by rewrite map_id.
Qed.

(** [build] hands out the account's next unused nonce and moves the counter
    by one, or fails and leaves the ledger as it was. *)
Lemma build_allocates (req : MintRequest) (now : nat) (ledger : gmap string nat) :
  match build req (configAccount config) now ledger with
  | (Ok p, ledger') =>
      nonce p = nextUnused (configAccount config) ledger
      /\ nextUnused (configAccount config) ledger' = S (nonce p)
  | (Fail _, ledger') => ledger' = ledger
  end.
Proof.
  unfold Core.build, allocate.
  destruct (Nat.eqb _ _ && wellFormed _); [| reflexivity].
  destruct (storageOk now); [| reflexivity].
  cbn [nonce]. split; [reflexivity |].
  rewrite nextUnused_insert. by destruct (decide _).
Qed.

(** One request: what it adds to the history, the nonce it is given and
    where it leaves the counter. *)
Lemma mint_allocation_step (req : MintRequest) (sys : System) :
  exists evs : list Event,
    history (snd (mint req sys)) = history sys ++ tagged (idempotencyKey req) evs
    /\ match allocatedBy req sys with
       | Some n =>
           n = counter sys
           /\ (reconciliations evs = [] -> counter (snd (mint req sys)) = S n)
       | None => counter (snd (mint req sys)) = counter sys
       end.
Proof.
  unfold Core.mint, Core.allocatedBy, beginOrGet.
  destruct (submissionLedger sys !! idempotencyKey req) as [r |].
  - exists []. cbn [snd history nonceLedger tagged map]. by rewrite app_nil_r.
  - pose proof (build_allocates req (clock sys) (nonceLedger sys)) as Hb.
    destruct (build req (configAccount config) (clock sys) (nonceLedger sys))
      as [[p | err] nonces].
    + destruct Hb as [Hn Hnext].
      destruct (sign signWith keyAccessible p (clock sys)) as [sg | err].
      * rewrite (submit_unfold config policy relay onChainNonce jitter).
        set (run := submitLoop config policy relay onChainNonce jitter
                      (maxAttempts policy) 0 0 (clock sys) (mkEnvelope p sg)).
        exists (snd run).
        destruct (fst run) as [h | err]; cbn [snd history nonceLedger];
          (split; [reflexivity |]); (split; [exact Hn |]);
          intros Hrec; rewrite foldl_applyEvent, Hrec; exact Hnext.
      * exists []. cbn [snd history nonceLedger tagged map].
        rewrite app_nil_r. auto.
    + exists []. cbn [snd history nonceLedger tagged map].
      rewrite app_nil_r. split; [reflexivity |]. by rewrite Hb.
Qed.

(** The nonce a request is given is the one its record holds afterwards. *)
Lemma allocatedBy_is_recorded (req : MintRequest) (sys : System) (n : nat) :
  allocatedBy req sys = Some n ->
  submissionLedger (snd (mint req sys)) !! idempotencyKey req ≫= assignedNonce
    = Some n.
Proof.
  unfold Core.mint, Core.allocatedBy, beginOrGet.
  destruct (submissionLedger sys !! idempotencyKey req) as [r |]; [discriminate |].
  destruct (build req (configAccount config) (clock sys) (nonceLedger sys))
    as [[p | err] nonces]; [| discriminate].
  intros [= <-].
  destruct (sign signWith keyAccessible p (clock sys)) as [sg | err].
  - destruct (submit _ _ _ _ _ _ _ _) as [[[h | err] evs] nonces'];
      cbn [snd submissionLedger]; unfold markFailed, advance;
      rewrite lookup_insert_eq; cbn [status inLifecycle snd];
      by rewrite lookup_insert_eq.
  - cbn [snd submissionLedger]. unfold markFailed, advance.
    rewrite lookup_insert_eq. cbn [status inLifecycle snd].
    by rewrite lookup_insert_eq.
Qed.

Lemma mintAll_history_grows (reqs : list MintRequest) :
  forall sys : System,
    exists ext, history (mintAll reqs sys) = history sys ++ ext.
Proof.
  unfold Core.mintAll.
  induction reqs as [| req rest IH]; intros sys; cbn [foldl].
  - exists []. by rewrite app_nil_r.
  - destruct (IH (snd (mint req sys))) as [ext Hext].
    destruct (mint_allocation_step req sys) as (evs & Hevs & _).
    exists (tagged (idempotencyKey req) evs ++ ext).
    by rewrite Hext, Hevs, <- app_assoc.
Qed.

Lemma allocations_consecutive (reqs : list MintRequest) :
  forall sys : System,
    reconciledIn (history (mintAll reqs sys)) = [] ->
    allocations reqs sys = seq (counter sys) (length (allocations reqs sys))
    /\ counter (mintAll reqs sys) = counter sys + length (allocations reqs sys).
Proof.
  induction reqs as [| req rest IH]; intros sys Hnone.
  - cbn. split; [reflexivity | lia].
  - assert (Hrest : mintAll (req :: rest) sys = mintAll rest (snd (mint req sys)))
      by reflexivity.
    rewrite Hrest in *.
    destruct (IH _ Hnone) as [IHseq IHcount].
    destruct (mintAll_history_grows rest (snd (mint req sys))) as [ext Hext].
    destruct (mint_allocation_step req sys) as (evs & Hevs & Hstep).
    assert (Hrec : reconciliations evs = []).
    { rewrite Hext, Hevs, !reconciledIn_app, reconciledIn_tagged in Hnone.
      apply app_eq_nil in Hnone as [Hnone _].
      by apply app_eq_nil in Hnone as [_ Hnone]. }
    cbn [Core.allocations].
    destruct (allocatedBy req sys) as [n |].
    + destruct Hstep as [-> Hcount]. specialize (Hcount Hrec).
      rewrite Hcount in IHseq, IHcount. cbn [length seq]. split.
      * f_equal. exact IHseq.
      * lia.
    + rewrite Hstep in IHseq, IHcount. split; assumption.
Qed.


End NonceSequenceFacts.

(** *** The specification's examples, run on the model *)

Section CoreExamples.

Import Core.

(** Two timeouts, then acceptance: three attempts with the same envelope, the
    waits doubling, no reconciliation. *)
Example demo_submit_slow :
  submit Demo.config Demo.policy Demo.slowRelay Demo.onChainNonce Demo.jitter
         Demo.envelope5 0 {["minter" := 6]}
  = (Ok "t1",
     [Attempt 0 Demo.envelope5 (TransientFailure Timeout); Backoff 1;
      Attempt 1 Demo.envelope5 (TransientFailure Timeout); Backoff 2;
      Attempt 3 Demo.envelope5 (Accepted "t1")],
     {["minter" := 6]}).
Proof. vm_compute. reflexivity. Qed.

(** The relay is never reachable: after the third attempt the attempts are
    exhausted and [submit] fails with [RelayUnavailable]. *)
Example demo_submit_dead :
  fst (submit Demo.config Demo.policy Demo.deadRelay Demo.onChainNonce Demo.jitter
         Demo.envelope5 0 {["minter" := 6]})
  = (Fail RelayUnavailable,
     [Attempt 0 Demo.envelope5 (TransientFailure ConnectionError); Backoff 1;
      Attempt 1 Demo.envelope5 (TransientFailure ConnectionError); Backoff 2;
      Attempt 3 Demo.envelope5 (TransientFailure ConnectionError)]).
Proof. vm_compute. reflexivity. Qed.

(** A server error is retried; the permanent rejection that follows is not:
    [RelayRejected], one reconciliation, the counter set to the chain's 9. *)
Example demo_submit_rejected :
  submit Demo.config Demo.policy Demo.strictRelay Demo.onChainNonce Demo.jitter
         Demo.envelope5 0 {["minter" := 6]}
  = (Fail RelayRejected,
     [Attempt 0 Demo.envelope5 (TransientFailure ServerError); Backoff 1;
      Attempt 1 Demo.envelope5 (Rejection "nonce consumed");
      Reconciled "minter" 9],
     {["minter" := 9]}).
Proof. vm_compute. reflexivity. Qed.

(** The first example of section 8: the request of key [k1] gets nonce 5 and
    handle [t1]; the same request again gets [t1] from the ledger, no nonce 6
    is allocated and nothing more is put on the wire. *)
Example demo_mint_twice :
  let '(r1, s1) := Demo.mintWith Demo.slowRelay Demo.request Demo.at5 in
  let '(r2, s2) := Demo.mintWith Demo.slowRelay Demo.request s1 in
  r1 = Ok (Some "t1", Submitted)
  /\ r2 = Ok (Some "t1", Submitted)
  /\ nextUnused "minter" (nonceLedger s1) = 6
  /\ nextUnused "minter" (nonceLedger s2) = 6
  /\ attemptsOf "k1" (history s2) = [Demo.envelope5; Demo.envelope5; Demo.envelope5].
Proof. vm_compute. repeat split; reflexivity. Qed.

(** The second example of section 8: [count] is 2 with one token URI; the
    request fails with [InvalidRequest] and the counter stays at 5. *)
Example demo_mint_mismatch :
  let '(r, s) := Demo.mintWith Demo.slowRelay Demo.mismatch Demo.at5 in
  r = Fail InvalidRequest
  /\ nextUnused "minter" (nonceLedger s) = 5
  /\ history s = [].
Proof. vm_compute. repeat split; reflexivity. Qed.

End CoreExamples.

(** *** The theorems with hypotheses, at concrete inputs *)

Section Witnesses.

Import Core.



(** C5 at a concrete run: the request of key [k1] is minted twice on a
    relay that times out twice before accepting; three attempts are on the
    wire for [k1], all of them the one envelope signed for nonce 0. *)
Lemma envelope_is_never_resigned_witness :
  attemptsOf "k1"
    (history (Demo.mintAllWith Demo.slowRelay [Demo.request; Demo.request] initial))
    = [Demo.envelopeAt 0; Demo.envelopeAt 0; Demo.envelopeAt 0]
  /\ signature (Demo.envelopeAt 0) = signature (Demo.envelopeAt 0)
  /\ payload (Demo.envelopeAt 0) = payload (Demo.envelopeAt 0).
Proof.
  split.
  - vm_compute. reflexivity.
  - apply (envelope_is_never_resigned Demo.config Demo.policy Demo.wellFormed
             Demo.encodeCall Demo.signWith Demo.keyAccessible Demo.storageOk
             Demo.slowRelay Demo.onChainNonce Demo.jitter
             [Demo.request; Demo.request] "k1");
      vm_compute; left; reflexivity.
Defined.


(** C8 at a concrete relay view: the submission is pending until time 10;
    waiting 3 units from time 0 returns [StillPending]. *)
Lemma awaitTerminal_times_out_pending_witness :
  awaitTerminal Demo.poll "t1" 3 0 = StillPending
  /\ isTerminalOutcome (awaitTerminal Demo.poll "t1" 3 0) = false
  /\ forall later : nat,
       awaitTerminal Demo.poll "t1" (3 + later) 0 =
         awaitTerminal Demo.poll "t1" later (0 + 3).
Proof.
  apply (awaitTerminal_times_out_pending Demo.poll "t1" 3 0).
  intros t Ht. unfold Demo.poll.
  destruct (Nat.ltb_spec t 10) as [_ | Hge]; [reflexivity | lia].
Defined.

(** Polling again later reaches the terminal outcome. *)
Example demo_poll_again :
  awaitTerminal Demo.poll "t1" 3 0 = StillPending
  /\ awaitTerminal Demo.poll "t1" 10 3 = ReachedMined "block 42".
Proof. split; reflexivity. Qed.

End Witnesses.
